(** * cm4u: Cortex-M4 core utilities (cm4u_core.h)

    A shallow embedding of the interrupt-mask helpers, the DWT cycle
    counter, the busy-wait delay, the time-to-cycle conversions and the
    profiling helpers of [cm4u_core.h], with the properties of the
    cycle-timebase contract proved about them. The read-only mode and
    stack-pointer queries and the main loop of [example_main.c] are
    embedded as well.

    Conventions.
    - [uint32_t] and [uint64_t] values are integers of [Z]; every C
      operation that can wrap has its reduction modulo [2^32] or [2^64]
      written out.
    - The core registers the header reaches through CMSIS are fields of
      the record [hw]; a function of the header that touches them is a
      computation of the state monad [M].
    - [DWT] and [CoreDebug] are macros of the device header: whether they
      are defined is a field of the record [platform], and each [#if] of
      the header is an [if] on it. *)

From Stdlib Require Import ZArith NArith Bool Lia.

#[local] Open Scope Z_scope.

(* ------------------------------------------------------------------------ *)
(** ** Fixed-width unsigned arithmetic *)

Module U.

Definition two32 : Z := 2 ^ 32.
Definition two64 : Z := 2 ^ 64.

(** [(uint32_t) x] and [(uint64_t) x]. *)
Definition to_u32 (x : Z) : Z := x mod two32.
Definition to_u64 (x : Z) : Z := x mod two64.

(** [uint32_t] subtraction and multiplication. *)
Definition sub32 (a b : Z) : Z := to_u32 (a - b).
Definition mul32 (a b : Z) : Z := to_u32 (a * b).

(** [uint64_t] multiplication and division. *)
Definition mul64 (a b : Z) : Z := to_u64 (a * b).
Definition div64 (a b : Z) : Z := a / b.

(** Bitwise or and and of 32-bit registers. *)
Definition or32 (a b : Z) : Z := to_u32 (Z.lor a b).
Definition and32 (a b : Z) : Z := to_u32 (Z.land a b).

Definition is_u32 (x : Z) : Prop := 0 <= x < two32.

End U.

(* ------------------------------------------------------------------------ *)
(** ** Core registers and the device header *)

(** What the device header provides: whether the macros [DWT] and
    [CoreDebug] are defined, and the two CMSIS bit masks the header uses
    ([CoreDebug_DEMCR_TRCENA_Msk], [DWT_CTRL_CYCCNTENA_Msk]). CMSIS is not
    part of the repository, so the masks are parameters of the model. *)
Record platform : Type := mkPlatform {
  has_DWT : bool;
  has_CoreDebug : bool;
  CoreDebug_DEMCR_TRCENA_Msk : Z;
  DWT_CTRL_CYCCNTENA_Msk : Z
}.

(** The registers the modelled functions read or write.
    - [PRIMASK] is the one-bit interrupt mask of the core.
    - [DEMCR], [DWT_CTRL], [DWT_CYCCNT] are the 32-bit debug registers.
    - [counted] is not a register: it is the number of core cycles the
      cycle counter has counted since power-on, without wrap-around. It is
      written by the hardware step [count_cycles] only and is never read by
      the header's functions. *)
Record hw : Type := mkHw {
  PRIMASK : bool;
  DEMCR : Z;
  DWT_CTRL : Z;
  DWT_CYCCNT : Z;
  counted : Z
}.

Definition set_PRIMASK_field (b : bool) (s : hw) : hw :=
  mkHw b (DEMCR s) (DWT_CTRL s) (DWT_CYCCNT s) (counted s).
Definition set_DEMCR (v : Z) (s : hw) : hw :=
  mkHw (PRIMASK s) v (DWT_CTRL s) (DWT_CYCCNT s) (counted s).
Definition set_DWT_CTRL (v : Z) (s : hw) : hw :=
  mkHw (PRIMASK s) (DEMCR s) v (DWT_CYCCNT s) (counted s).
Definition set_DWT_CYCCNT (v : Z) (s : hw) : hw :=
  mkHw (PRIMASK s) (DEMCR s) (DWT_CTRL s) v (counted s).

(** *** The hardware's own step: the cycle counter counts.

    One counted core cycle increments [DWT_CYCCNT], which wraps from
    [2^32 - 1] to [0] (the header: "wraps at 2^32"). *)
Definition tick (s : hw) : hw :=
  mkHw (PRIMASK s) (DEMCR s) (DWT_CTRL s)
       (U.to_u32 (DWT_CYCCNT s + 1)) (counted s + 1).

(** The counter counts [n] cycles. *)
Definition count_cycles (n : N) (s : hw) : hw := N.iter n tick s.

(* ------------------------------------------------------------------------ *)
(** ** The state monad of register accesses *)

Definition M (A : Type) : Type := hw -> A * hw.

Definition ret {A} (a : A) : M A := fun s => (a, s).
Definition bind {A B} (m : M A) (k : A -> M B) : M B :=
  fun s => let (a, s') := m s in k a s'.

Declare Scope cm4u_scope.
Delimit Scope cm4u_scope with cm4u.
Notation "x <- m ;; k" := (bind m (fun x => k))
  (at level 61, m at next level, right associativity) : cm4u_scope.
Notation "m ;;; k" := (bind m (fun _ => k))
  (at level 61, right associativity) : cm4u_scope.
#[local] Open Scope cm4u_scope.

Definition read {A} (f : hw -> A) : M A := fun s => (f s, s).
Definition write (f : hw -> hw) : M unit := fun s => (tt, f s).

(** *** CMSIS intrinsics used by the modelled functions.

    [MRS r, PRIMASK] yields the mask bit zero-extended, [MSR PRIMASK, r]
    takes bit 0 of its operand, [CPSID i] sets the mask. *)
Definition __get_PRIMASK : M Z := read (fun s => Z.b2z (PRIMASK s)).
Definition __set_PRIMASK (v : Z) : M unit :=
  write (set_PRIMASK_field (Z.testbit v 0)).
Definition __disable_irq : M unit := write (set_PRIMASK_field true).
Definition __enable_irq : M unit := write (set_PRIMASK_field false).
Definition __NOP : M unit := ret tt.

(* ------------------------------------------------------------------------ *)
(** ** Interrupt / critical section helpers *)

Definition cm4u_global_irq_disable : M unit := __disable_irq.
Definition cm4u_global_irq_enable : M unit := __enable_irq.

Definition cm4u_critical_enter : M Z :=
  primask <- __get_PRIMASK ;;
  __disable_irq ;;;
  ret primask.

Definition cm4u_critical_exit (primask : Z) : M unit :=
  __set_PRIMASK primask.

Definition cm4u_get_primask : M Z := __get_PRIMASK.
Definition cm4u_set_primask (primask : Z) : M unit := __set_PRIMASK primask.

(* ------------------------------------------------------------------------ *)
(** ** DWT-based cycle counter *)

Section Timebase.

Variable p : platform.

Definition cm4u_dwt_init : M bool :=
  if has_DWT p && has_CoreDebug p then
    (* Enable trace in DEMCR *)
    demcr <- read DEMCR ;;
    (if U.and32 demcr (CoreDebug_DEMCR_TRCENA_Msk p) =? 0
     then
       demcr' <- read DEMCR ;;
       write (set_DEMCR (U.or32 demcr' (CoreDebug_DEMCR_TRCENA_Msk p)))
     else ret tt) ;;;
    (* Reset and enable cycle counter *)
    write (set_DWT_CYCCNT 0) ;;;
    ctrl <- read DWT_CTRL ;;
    write (set_DWT_CTRL (U.or32 ctrl (DWT_CTRL_CYCCNTENA_Msk p))) ;;;
    ret true
  else
    ret false.

Definition cm4u_dwt_get_cycles : M Z :=
  if has_DWT p then read DWT_CYCCNT else ret 0.

Definition cm4u_profile_cycles_start : M Z := cm4u_dwt_get_cycles.

Definition cm4u_profile_cycles_end (start_cycles : Z) : M Z :=
  now <- cm4u_dwt_get_cycles ;;
  ret (U.sub32 now start_cycles).

End Timebase.

(* ------------------------------------------------------------------------ *)
(** ** Time-to-cycle conversions *)

Definition cm4u_us_to_cycles (us core_clock_hz : Z) : Z :=
  let tmp := U.mul64 (U.to_u64 core_clock_hz) (U.to_u64 us) in
  let tmp := U.div64 tmp 1000000 in
  U.to_u32 tmp.

Definition cm4u_ms_to_cycles (ms core_clock_hz : Z) : Z :=
  let tmp := U.mul64 (U.to_u64 core_clock_hz) (U.to_u64 ms) in
  let tmp := U.div64 tmp 1000 in
  U.to_u32 tmp.

(* ------------------------------------------------------------------------ *)
(** ** Busy-wait delays *)

(** The spin loop of [cm4u_delay_cycles] reads the free-running counter
    again and again while the hardware keeps counting. [env i] is the
    number of cycles the counter counts between read number [i] and read
    number [i + 1] of the function (read 0 is the start reading), so the
    loop is modelled for every behaviour of the clock. [fuel] bounds the
    number of loop tests; [None] means the function is still spinning
    after [fuel] tests. *)
Section Delay.

Variable p : platform.
Variable env : nat -> N.

Fixpoint spin (start cycles : Z) (fuel i : nat) (s : hw) : option hw :=
  match fuel with
  | O => None
  | S fuel' =>
      let s1 := count_cycles (env i) s in
      let (now, s2) := read DWT_CYCCNT s1 in
      if U.sub32 now start <? cycles
      then spin start cycles fuel' (S i) (snd (__NOP s2))
      else Some s2
  end.

Definition cm4u_delay_cycles (fuel : nat) (cycles : Z) (s : hw) : option hw :=
  if has_DWT p then
    let (start, s0) := read DWT_CYCCNT s in
    spin start cycles fuel O s0
  else
    Some s.

Definition cm4u_delay_us (fuel : nat) (us core_clock_hz : Z) (s : hw)
  : option hw :=
  let cycles := cm4u_us_to_cycles us core_clock_hz in
  cm4u_delay_cycles fuel cycles s.

Definition cm4u_delay_ms (fuel : nat) (ms core_clock_hz : Z) (s : hw)
  : option hw :=
  let cycles := cm4u_ms_to_cycles ms core_clock_hz in
  cm4u_delay_cycles fuel cycles s.

(** The state in which loop test number [k] (from 0) reads the counter. *)
Fixpoint at_poll (k : nat) (i : nat) (s : hw) : hw :=
  match k with
  | O => count_cycles (env i) s
  | S k' => at_poll k' (S i) (count_cycles (env i) s)
  end.

End Delay.

(** [tracks s s'] : from [s] to [s'] the counter has only counted, and its
    register has followed the count modulo [2^32]. *)
Definition tracks (s s' : hw) : Prop :=
  counted s <= counted s' /\
  U.to_u32 (DWT_CYCCNT s') = U.to_u32 (DWT_CYCCNT s + (counted s' - counted s)).

(* ------------------------------------------------------------------------ *)
(** ** Concrete platforms and states used in examples *)

(** A device whose header defines [DWT] and [CoreDebug], with the CMSIS
    values of the two masks (bit 24 of DEMCR, bit 0 of DWT_CTRL). *)
Definition stm32f4 : platform := mkPlatform true true (Z.shiftl 1 24) 1.

(** A device whose header defines neither. *)
Definition no_dwt : platform := mkPlatform false false (Z.shiftl 1 24) 1.

(** Registers after reset: interrupts enabled, debug registers clear. *)
Definition reset_state : hw := mkHw false 0 0 0 0.

(** A state whose counter is 16 cycles short of wrapping. *)
Definition near_wrap : hw := mkHw false (Z.shiftl 1 24) 1 0xFFFFFFF0 0xFFFFFFF0.

(** A clock that counts 3 cycles between consecutive reads. *)
Definition three_per_read : nat -> N := fun _ => 3%N.

(* ------------------------------------------------------------------------ *)
(** ** Core mode and stack-pointer queries *)

(** The two special registers the read-only queries of the header look
    at, as [__get_IPSR] and [__get_CONTROL] return them. *)
Record core_regs : Type := mkCore {
  IPSR : Z;
  CONTROL : Z
}.

Definition __get_IPSR (c : core_regs) : Z := IPSR c.
Definition __get_CONTROL (c : core_regs) : Z := CONTROL c.

Definition cm4u_get_ipsr (c : core_regs) : Z := __get_IPSR c.

Definition cm4u_in_thread_mode (c : core_regs) : bool :=
  __get_IPSR c =? 0.

Definition cm4u_in_handler_mode (c : core_regs) : bool :=
  negb (__get_IPSR c =? 0).

Definition cm4u_get_exception_number (c : core_regs) : Z :=
  U.and32 (__get_IPSR c) 0x1FF.

Definition cm4u_get_control (c : core_regs) : Z := __get_CONTROL c.

Definition cm4u_using_msp (c : core_regs) : bool :=
  U.and32 (__get_CONTROL c) 0x2 =? 0.

Definition cm4u_using_psp (c : core_regs) : bool :=
  negb (U.and32 (__get_CONTROL c) 0x2 =? 0).

(* ------------------------------------------------------------------------ *)
(** ** The example program (example_main.c) *)

Definition core_hz : Z := 168000000.

Section Example.

Variable p : platform.

Definition delay_us_blocking (env : nat -> N) (fuel : nat) (us core_hz : Z)
  : hw -> option hw :=
  cm4u_delay_us p env fuel us core_hz.

(** One pass of the body of [while (1)] in [main]. [work] is the number
    of cycles the counter counts while the profiled [__NOP] runs; [env]
    is the clock seen by the delay loop. The measured value [spent] is
    discarded, as in the source. *)
Definition main_loop_body (work : N) (env : nat -> N) (fuel : nat) (s : hw)
  : option hw :=
  let (primask, s1) := cm4u_critical_enter s in
  let (_, s2) := cm4u_critical_exit primask s1 in
  let (start, s3) := cm4u_profile_cycles_start p s2 in
  let (_, s4) := __NOP s3 in
  let s5 := count_cycles work s4 in
  let (spent, s6) := cm4u_profile_cycles_end p start s5 in
  delay_us_blocking env fuel 10 core_hz s6.

End Example.

(* ------------------------------------------------------------------------ *)
(** ** Auxiliary predicates and test data *)

(** [regs_kept s s'] : the interrupt mask and the two debug control
    registers are the same in [s'] as in [s]. *)
Definition regs_kept (s s' : hw) : Prop :=
  PRIMASK s' = PRIMASK s /\ DEMCR s' = DEMCR s /\ DWT_CTRL s' = DWT_CTRL s.

(** A device whose header defines [DWT] but not [CoreDebug]. *)
Definition dwt_only : platform := mkPlatform true false (Z.shiftl 1 24) 1.

(** A clock that does not count. *)
Definition stalled : nat -> N := fun _ => 0%N.

(** The registers as read inside the SysTick handler (exception 15). *)
Definition in_systick : core_regs := mkCore 15 0.

(* ------------------------------------------------------------------------ *)
(** * Properties *)

(** ** Modular arithmetic helpers *)

Lemma two32_pos : 0 < U.two32.
Proof. reflexivity. Qed.

Lemma two64_pos : 0 < U.two64.
Proof. reflexivity. Qed.

Lemma to_u32_small (x : Z) : U.is_u32 x -> U.to_u32 x = x.
Proof. intros H. apply Z.mod_small. exact H. Qed.

Lemma to_u32_range (x : Z) : U.is_u32 (U.to_u32 x).
Proof. apply Z.mod_pos_bound, two32_pos. Qed.

Lemma u32_product_fits (a b : Z) :
  U.is_u32 a -> U.is_u32 b -> 0 <= a * b < U.two64.
Proof.
  unfold U.is_u32. intros Ha Hb.
  assert (E : U.two64 = U.two32 * U.two32) by reflexivity.
  rewrite E. pose proof two32_pos. nia.
Qed.

Lemma sub32_congr (a a' c : Z) :
  U.to_u32 a = U.to_u32 a' -> U.sub32 a c = U.sub32 a' c.
Proof.
  unfold U.sub32, U.to_u32. intros H.
  rewrite <- (Zminus_mod_idemp_l a), <- (Zminus_mod_idemp_l a'), H.
  reflexivity.
Qed.

Lemma to_u32_le (n : Z) : 0 <= n -> U.to_u32 n <= n.
Proof. intros H. apply Z.mod_le; [exact H | apply two32_pos]. Qed.

(** ** The counting step *)

Lemma count_cycles_succ (n : N) (s : hw) :
  count_cycles (N.succ n) s = tick (count_cycles n s).
Proof. unfold count_cycles. apply N.iter_succ. Qed.

Lemma count_cycles_counted (n : N) (s : hw) :
  counted (count_cycles n s) = counted s + Z.of_N n.
Proof.
  induction n as [|n IH] using N.peano_ind.
  - simpl. lia.
  - rewrite count_cycles_succ. simpl. rewrite IH. lia.
Qed.

Lemma count_cycles_CYCCNT (n : N) (s : hw) :
  U.to_u32 (DWT_CYCCNT (count_cycles n s))
  = U.to_u32 (DWT_CYCCNT s + Z.of_N n).
Proof.
  induction n as [|n IH] using N.peano_ind.
  - simpl. f_equal. lia.
  - rewrite count_cycles_succ. simpl.
    unfold U.to_u32 in *.
    rewrite Z.mod_mod by (pose proof two32_pos; lia).
    rewrite <- Zplus_mod_idemp_l, IH, Zplus_mod_idemp_l.
    f_equal. lia.
Qed.

Lemma count_cycles_range (n : N) (s : hw) :
  n <> 0%N -> U.is_u32 (DWT_CYCCNT (count_cycles n s)).
Proof.
  intros Hn. rewrite <- (N.succ_pred n Hn), count_cycles_succ.
  apply to_u32_range.
Qed.

Lemma count_cycles_PRIMASK (n : N) (s : hw) :
  PRIMASK (count_cycles n s) = PRIMASK s.
Proof.
  induction n as [|n IH] using N.peano_ind.
  - reflexivity.
  - rewrite count_cycles_succ. simpl. exact IH.
Qed.

Lemma tracks_refl (s : hw) : tracks s s.
Proof. split; [lia | f_equal; lia]. Qed.

Lemma tracks_count (n : N) (s s' : hw) :
  tracks s s' -> tracks s (count_cycles n s').
Proof.
  intros [Hle Hc]. split.
  - rewrite count_cycles_counted. lia.
  - rewrite count_cycles_CYCCNT, count_cycles_counted.
    unfold U.to_u32 in *.
    rewrite <- Zplus_mod_idemp_l, Hc, Zplus_mod_idemp_l.
    f_equal. lia.
Qed.

Lemma tracks_diff (s s' : hw) :
  tracks s s' ->
  U.sub32 (DWT_CYCCNT s') (DWT_CYCCNT s) = U.to_u32 (counted s' - counted s).
Proof.
  intros [_ Hc]. rewrite (sub32_congr _ _ _ Hc). unfold U.sub32.
  f_equal. lia.
Qed.

Lemma tracks_elapsed (s s' : hw) :
  tracks s s' ->
  U.sub32 (DWT_CYCCNT s') (DWT_CYCCNT s) <= counted s' - counted s.
Proof.
  intros [Hle Hc].
  rewrite (sub32_congr _ _ _ Hc). unfold U.sub32.
  replace (DWT_CYCCNT s + (counted s' - counted s) - DWT_CYCCNT s)
    with (counted s' - counted s) by lia.
  apply to_u32_le. lia.
Qed.

(* ------------------------------------------------------------------------ *)
(** ** Time-to-cycle conversions *)

(** The 64-bit product of two [uint32_t] values is exact. *)
Lemma mul64_of_u32 (a b : Z) :
  0 <= a -> 0 <= b -> a * b < U.two64 ->
  U.mul64 (U.to_u64 a) (U.to_u64 b) = a * b.
Proof.
  intros Ha Hb Hab. unfold U.mul64, U.to_u64.
  rewrite <- Z.mul_mod by (pose proof two64_pos; lia).
  apply Z.mod_small. split; [apply Z.mul_nonneg_nonneg; assumption | exact Hab].
Qed.

(** On [uint32_t] inputs each conversion is the truncated floor of the
    exact quotient. *)
Lemma us_to_cycles_u32 (us core_clock_hz : Z) :
  U.is_u32 us -> U.is_u32 core_clock_hz ->
  cm4u_us_to_cycles us core_clock_hz
  = U.to_u32 (core_clock_hz * us / 1000000).
Proof.
  intros Hu Hc. unfold cm4u_us_to_cycles, U.div64.
  rewrite mul64_of_u32; [reflexivity | apply Hc | apply Hu |].
  apply (u32_product_fits core_clock_hz us Hc Hu).
Qed.

Lemma ms_to_cycles_u32 (ms core_clock_hz : Z) :
  U.is_u32 ms -> U.is_u32 core_clock_hz ->
  cm4u_ms_to_cycles ms core_clock_hz
  = U.to_u32 (core_clock_hz * ms / 1000).
Proof.
  intros Hm Hc. unfold cm4u_ms_to_cycles, U.div64.
  rewrite mul64_of_u32; [reflexivity | apply Hc | apply Hm |].
  apply (u32_product_fits core_clock_hz ms Hc Hm).
Qed.

(** C1. For [uint32_t] inputs whose product is below [2^64],
    [cm4u_us_to_cycles us core_clock_hz] is
    [floor (core_clock_hz * us / 1_000_000) mod 2^32]. *)
Theorem us_to_cycles_spec (us core_clock_hz : Z) :
  U.is_u32 us -> U.is_u32 core_clock_hz ->
  core_clock_hz * us < 2 ^ 64 ->
  cm4u_us_to_cycles us core_clock_hz
  = (core_clock_hz * us / 1000000) mod 2 ^ 32.
Proof.
  intros [Hu _] [Hc _] Hprod.
  unfold cm4u_us_to_cycles, U.div64.
  rewrite mul64_of_u32 by assumption.
  reflexivity.
Qed.

Lemma us_to_cycles_spec_witness :
  U.is_u32 4294967295 /\
  4294967295 * 4294967295 < 2 ^ 64 /\
  cm4u_us_to_cycles 4294967295 4294967295
  = (4294967295 * 4294967295 / 1000000) mod 2 ^ 32.
Proof.
  assert (Hmax : U.is_u32 4294967295) by (unfold U.is_u32, U.two32; lia).
  assert (Hprod : 4294967295 * 4294967295 < 2 ^ 64) by reflexivity.
  split; [exact Hmax|]. split; [exact Hprod|].
  exact (us_to_cycles_spec 4294967295 4294967295 Hmax Hmax Hprod).
Defined.

(** C4. For all [uint32_t] inputs, with no condition on their product,
    [cm4u_ms_to_cycles ms core_clock_hz] is
    [floor (core_clock_hz * ms / 1000) mod 2^32]. *)
Theorem ms_to_cycles_spec (ms core_clock_hz : Z) :
  U.is_u32 ms -> U.is_u32 core_clock_hz ->
  cm4u_ms_to_cycles ms core_clock_hz
  = (core_clock_hz * ms / 1000) mod 2 ^ 32.
Proof.
  intros Hm Hc.
  unfold cm4u_ms_to_cycles, U.div64.
  rewrite mul64_of_u32.
  - reflexivity.
  - apply Hc.
  - apply Hm.
  - apply (u32_product_fits core_clock_hz ms Hc Hm).
Qed.

Lemma ms_to_cycles_spec_witness :
  U.is_u32 4294967295 /\
  cm4u_ms_to_cycles 4294967295 4294967295
  = (4294967295 * 4294967295 / 1000) mod 2 ^ 32.
Proof.
  assert (Hmax : U.is_u32 4294967295) by (unfold U.is_u32, U.two32; lia).
  split; [exact Hmax|].
  exact (ms_to_cycles_spec 4294967295 4294967295 Hmax Hmax).
Defined.

(** C9. At a core clock of 168 MHz, 10 microseconds are 1680 cycles and
    1 millisecond is 168000 cycles. *)
Theorem conversions_at_168MHz :
  cm4u_us_to_cycles 10 168000000 = 1680 /\
  cm4u_ms_to_cycles 1 168000000 = 168000.
Proof. split; reflexivity. Qed.

(** C10. When [1000 * ms] fits in a [uint32_t], converting that many
    microseconds gives the same cycle count as converting [ms]
    milliseconds. *)
Theorem us_ms_conversions_agree (ms core_clock_hz : Z) :
  U.is_u32 ms -> U.is_u32 core_clock_hz ->
  ms <= (2 ^ 32 - 1) / 1000 ->
  cm4u_us_to_cycles (U.mul32 1000 ms) core_clock_hz
  = cm4u_ms_to_cycles ms core_clock_hz.
Proof.
  intros Hm Hc Hfit.
  assert (Hus : U.is_u32 (1000 * ms)).
  { destruct Hm as [Hm0 _]. unfold U.is_u32, U.two32.
    change ((2 ^ 32 - 1) / 1000) with 4294967 in Hfit.
    change (2 ^ 32) with 4294967296. lia. }
  unfold U.mul32. rewrite (to_u32_small _ Hus).
  rewrite us_to_cycles_u32, ms_to_cycles_u32; try assumption.
  f_equal.
  replace (core_clock_hz * (1000 * ms)) with (1000 * (core_clock_hz * ms)) by lia.
  change 1000000 with (1000 * 1000).
  apply Z.div_mul_cancel_l; lia.
Qed.

Lemma us_ms_conversions_agree_witness :
  U.is_u32 4294967 /\ U.is_u32 168000000 /\
  4294967 <= (2 ^ 32 - 1) / 1000 /\
  cm4u_us_to_cycles (U.mul32 1000 4294967) 168000000
  = cm4u_ms_to_cycles 4294967 168000000.
Proof.
  assert (Hms : U.is_u32 4294967) by (unfold U.is_u32, U.two32; lia).
  assert (Hhz : U.is_u32 168000000) by (unfold U.is_u32, U.two32; lia).
  assert (Hfit : 4294967 <= (2 ^ 32 - 1) / 1000)
    by (vm_compute; discriminate).
  split; [exact Hms|]. split; [exact Hhz|]. split; [exact Hfit|].
  exact (us_ms_conversions_agree 4294967 168000000 Hms Hhz Hfit).
Defined.

(* ------------------------------------------------------------------------ *)
(** ** Critical sections *)

Lemma set_PRIMASK_field_same (s : hw) : set_PRIMASK_field (PRIMASK s) s = s.
Proof. destruct s; reflexivity. Qed.

Lemma set_PRIMASK_field_twice (a b : bool) (s : hw) :
  set_PRIMASK_field a (set_PRIMASK_field b s) = set_PRIMASK_field a s.
Proof. reflexivity. Qed.

Lemma testbit_b2z_0 (b : bool) : Z.testbit (Z.b2z b) 0 = b.
Proof. destruct b; reflexivity. Qed.

(** C8. [cm4u_critical_enter] returns the value PRIMASK had before the
    call and leaves PRIMASK set; [cm4u_critical_exit] with the returned
    value brings the registers back to the state before the enter. *)
Theorem critical_enter_exit_roundtrip (s : hw) :
  let (saved, s1) := cm4u_critical_enter s in
  saved = fst (cm4u_get_primask s) /\
  PRIMASK s1 = true /\
  snd (cm4u_critical_exit saved s1) = s.
Proof.
  unfold cm4u_critical_enter, cm4u_critical_exit, cm4u_get_primask.
  unfold bind, ret, __get_PRIMASK, __disable_irq, __set_PRIMASK, read, write.
  cbv beta iota delta [fst snd]. repeat split.
  rewrite testbit_b2z_0, set_PRIMASK_field_twice.
  apply set_PRIMASK_field_same.
Qed.

(* ------------------------------------------------------------------------ *)
(** ** Reading the cycle counter *)

Lemma get_cycles_present (p : platform) (s : hw) :
  has_DWT p = true -> cm4u_dwt_get_cycles p s = (DWT_CYCCNT s, s).
Proof. intros H. unfold cm4u_dwt_get_cycles. rewrite H. reflexivity. Qed.

Lemma get_cycles_absent (p : platform) (s : hw) :
  has_DWT p = false -> cm4u_dwt_get_cycles p s = (0, s).
Proof. intros H. unfold cm4u_dwt_get_cycles. rewrite H. reflexivity. Qed.

Lemma profile_cycles_end_eq (p : platform) (start : Z) (s : hw) :
  cm4u_profile_cycles_end p start s
  = (U.sub32 (fst (cm4u_dwt_get_cycles p s)) start, s).
Proof.
  unfold cm4u_profile_cycles_end, cm4u_dwt_get_cycles, bind, ret, read.
  destruct (has_DWT p); reflexivity.
Qed.

(** On a device with both units, [cm4u_dwt_init] returns [true] and
    leaves the counter at zero; PRIMASK is untouched. *)
Lemma dwt_init_present (p : platform) (s : hw) :
  has_DWT p = true -> has_CoreDebug p = true ->
  fst (cm4u_dwt_init p s) = true /\
  DWT_CYCCNT (snd (cm4u_dwt_init p s)) = 0 /\
  PRIMASK (snd (cm4u_dwt_init p s)) = PRIMASK s.
Proof.
  intros Hd Hc. unfold cm4u_dwt_init. rewrite Hd, Hc.
  unfold bind, read, write, ret. cbn [andb].
  destruct (U.and32 (DEMCR s) (CoreDebug_DEMCR_TRCENA_Msk p) =? 0);
    repeat split.
Qed.

(** C6. On a device without the DWT unit, [cm4u_dwt_init] returns [false]
    and leaves every register as it was, and [cm4u_dwt_get_cycles]
    returns 0 in every state, leaving the registers as they were. *)
Theorem dwt_absent_init_false_cycles_zero (p : platform) :
  has_DWT p = false ->
  forall s : hw,
    cm4u_dwt_init p s = (false, s) /\
    forall s' : hw, cm4u_dwt_get_cycles p s' = (0, s').
Proof.
  intros Habs s. split.
  - unfold cm4u_dwt_init. rewrite Habs. reflexivity.
  - intros s'. apply get_cycles_absent, Habs.
Qed.

Lemma dwt_absent_init_false_cycles_zero_witness :
  has_DWT no_dwt = false /\
  cm4u_dwt_init no_dwt near_wrap = (false, near_wrap) /\
  cm4u_dwt_get_cycles no_dwt (count_cycles 7 near_wrap)
  = (0, count_cycles 7 near_wrap).
Proof.
  split; [reflexivity|].
  destruct (dwt_absent_init_false_cycles_zero no_dwt eq_refl near_wrap)
    as [Hinit Hget].
  split; [exact Hinit | apply Hget].
Defined.

(** C7. On a device with the DWT unit, [cm4u_profile_cycles_start]
    returns the value of the counter register, and
    [cm4u_profile_cycles_end start] returns that register's current
    value minus [start] reduced modulo [2^32], changing no register;
    called on the value of [cm4u_profile_cycles_start] with no counting
    in between, it returns 0. *)
Theorem profile_end_is_now_minus_start (p : platform) (s : hw) :
  has_DWT p = true ->
  cm4u_profile_cycles_start p s = (DWT_CYCCNT s, s) /\
  (forall start : Z,
      cm4u_profile_cycles_end p start s
      = ((DWT_CYCCNT s - start) mod 2 ^ 32, s)) /\
  (start <- cm4u_profile_cycles_start p ;;
   (fun s1 => cm4u_profile_cycles_end p start (count_cycles 0 s1))) s
  = (0, s).
Proof.
  intros Hp.
  assert (Hstart : cm4u_profile_cycles_start p s = (DWT_CYCCNT s, s))
    by (unfold cm4u_profile_cycles_start; apply get_cycles_present, Hp).
  assert (Hend : forall start : Z,
             cm4u_profile_cycles_end p start s
             = ((DWT_CYCCNT s - start) mod 2 ^ 32, s)).
  { intros start. rewrite profile_cycles_end_eq, get_cycles_present by exact Hp.
    reflexivity. }
  split; [exact Hstart|]. split; [exact Hend|].
  unfold bind. rewrite Hstart.
  change (count_cycles 0 s) with s.
  rewrite Hend, Z.sub_diag. reflexivity.
Qed.

Lemma profile_end_is_now_minus_start_witness :
  has_DWT stm32f4 = true /\
  cm4u_profile_cycles_start stm32f4 near_wrap = (0xFFFFFFF0, near_wrap) /\
  cm4u_profile_cycles_end stm32f4 0xFFFFFFFF near_wrap
  = (0xFFFFFFF1, near_wrap) /\
  (start <- cm4u_profile_cycles_start stm32f4 ;;
   (fun s1 => cm4u_profile_cycles_end stm32f4 start (count_cycles 0 s1)))
    near_wrap
  = (0, near_wrap).
Proof.
  split; [reflexivity|].
  destruct (profile_end_is_now_minus_start stm32f4 near_wrap eq_refl)
    as (Hstart & Hend & Hzero).
  split; [exact Hstart|]. split; [exact (Hend 0xFFFFFFFF) | exact Hzero].
Defined.

(** C2. On a device with the DWT unit, let [a] be a reading of the
    counter, let the counter then count [n < 2^32] cycles, and let [b] be
    the reading after that. Then [cm4u_profile_cycles_end a], called when
    the counter reads [b], returns [n], and so does the 32-bit unsigned
    subtraction [b - a]. *)
Theorem wrapped_difference_is_elapsed (p : platform) (s : hw) (n : N) :
  has_DWT p = true ->
  Z.of_N n < 2 ^ 32 ->
  let a := fst (cm4u_dwt_get_cycles p s) in
  let s' := count_cycles n s in
  let b := fst (cm4u_dwt_get_cycles p s') in
  fst (cm4u_profile_cycles_end p a s') = Z.of_N n /\
  U.sub32 b a = Z.of_N n /\
  counted s' - counted s = Z.of_N n.
Proof.
  intros Hp Hn a s' b. subst a s' b.
  rewrite profile_cycles_end_eq, !get_cycles_present by exact Hp. simpl.
  assert (E : U.sub32 (DWT_CYCCNT (count_cycles n s)) (DWT_CYCCNT s) = Z.of_N n).
  { rewrite (sub32_congr _ _ _ (count_cycles_CYCCNT n s)).
    unfold U.sub32.
    replace (DWT_CYCCNT s + Z.of_N n - DWT_CYCCNT s) with (Z.of_N n) by lia.
    apply to_u32_small. split; [lia | exact Hn]. }
  repeat split; try exact E.
  rewrite count_cycles_counted. lia.
Qed.

Lemma wrapped_difference_is_elapsed_witness :
  has_DWT stm32f4 = true /\
  Z.of_N 100 < 2 ^ 32 /\
  fst (cm4u_dwt_get_cycles stm32f4 near_wrap) = 0xFFFFFFF0 /\
  fst (cm4u_dwt_get_cycles stm32f4 (count_cycles 100 near_wrap)) = 0x54 /\
  fst (cm4u_profile_cycles_end stm32f4 0xFFFFFFF0 (count_cycles 100 near_wrap))
  = 100.
Proof.
  split; [reflexivity|]. split; [reflexivity|].
  split; [reflexivity|]. split; [vm_compute; reflexivity|].
  apply (wrapped_difference_is_elapsed stm32f4 near_wrap 100).
  - reflexivity.
  - reflexivity.
Defined.

(** C5 (as amended). On a device with the DWT unit, a counter that reads
    [0xFFFFFFF0] reads [0x00000010] after 32 increments, and
    [cm4u_profile_cycles_end 0xFFFFFFF0] then returns 32. *)
Theorem wrap_scenario_32_increments (p : platform) (s : hw) :
  has_DWT p = true ->
  fst (cm4u_dwt_get_cycles p s) = 0xFFFFFFF0 ->
  let s' := count_cycles 32 s in
  fst (cm4u_dwt_get_cycles p s') = 0x00000010 /\
  fst (cm4u_profile_cycles_end p 0xFFFFFFF0 s') = 32.
Proof.
  intros Hp Ha s'. subst s'.
  rewrite get_cycles_present in Ha by exact Hp. cbn [fst] in Ha.
  rewrite profile_cycles_end_eq, !get_cycles_present by exact Hp. cbn [fst].
  pose proof (count_cycles_CYCCNT 32 s) as Hc.
  rewrite Ha in Hc.
  assert (E : U.to_u32 (0xFFFFFFF0 + Z.of_N 32) = U.to_u32 16)
    by (vm_compute; reflexivity).
  rewrite E in Hc. clear E.
  split.
  - rewrite <- (to_u32_small _ (count_cycles_range 32 s ltac:(discriminate))).
    rewrite Hc. vm_compute. reflexivity.
  - rewrite (sub32_congr _ 16 _ Hc). vm_compute. reflexivity.
Qed.

Lemma wrap_scenario_32_increments_witness :
  has_DWT stm32f4 = true /\
  fst (cm4u_dwt_get_cycles stm32f4 near_wrap) = 0xFFFFFFF0 /\
  fst (cm4u_dwt_get_cycles stm32f4 (count_cycles 32 near_wrap)) = 0x00000010 /\
  fst (cm4u_profile_cycles_end stm32f4 0xFFFFFFF0 (count_cycles 32 near_wrap))
  = 32.
Proof.
  split; [reflexivity|]. split; [reflexivity|].
  apply (wrap_scenario_32_increments stm32f4 near_wrap).
  - reflexivity.
  - reflexivity.
Defined.

(** C5 as stated fails: 32 increments after [0xFFFFFFF0] the counter does
    not read [0x0000000F]. *)
Lemma wrap_scenario_not_0x0F :
  ~ (fst (cm4u_dwt_get_cycles stm32f4 (count_cycles 32 near_wrap)) = 0x0000000F
     /\ fst (cm4u_profile_cycles_end stm32f4 0xFFFFFFF0
               (count_cycles 32 near_wrap)) = 32).
Proof. intros [H _]. vm_compute in H. discriminate H. Qed.

(** A reading of [0x0000000F] is 31 cycles after [0xFFFFFFF0]. *)
Lemma reading_0x0F_is_31_cycles :
  fst (cm4u_dwt_get_cycles stm32f4 (count_cycles 31 near_wrap)) = 0x0000000F /\
  fst (cm4u_profile_cycles_end stm32f4 0xFFFFFFF0 (count_cycles 31 near_wrap))
  = 31.
Proof. split; reflexivity. Qed.

(* ------------------------------------------------------------------------ *)
(** ** The busy-wait loop *)

Section DelayFacts.

Variable env : nat -> N.

Lemma at_poll_tracks (k : nat) :
  forall (i : nat) (s0 s : hw), tracks s0 s -> tracks s0 (at_poll env k i s).
Proof.
  induction k as [|k IH]; intros i s0 s H; simpl.
  - apply tracks_count, H.
  - apply IH, tracks_count, H.
Qed.

(** When the loop exits it has just seen a difference of at least
    [cycles], and every earlier test saw a smaller one. *)
Lemma spin_exit (start cycles : Z) (fuel : nat) :
  forall (i : nat) (s s' : hw),
    spin env start cycles fuel i s = Some s' ->
    exists k : nat,
      (k < fuel)%nat /\
      s' = at_poll env k i s /\
      cycles <= U.sub32 (DWT_CYCCNT s') start /\
      forall j : nat, (j < k)%nat ->
        U.sub32 (DWT_CYCCNT (at_poll env j i s)) start < cycles.
Proof.
  induction fuel as [|fuel IH]; intros i s s' H; simpl in H.
  - discriminate H.
  - destruct (Z.ltb_spec (U.sub32 (DWT_CYCCNT (count_cycles (env i) s)) start)
                cycles) as [Hlt | Hge].
    + apply IH in H. destruct H as (k & Hk & Hs & Hd & Hearlier).
      exists (S k). repeat split.
      * lia.
      * exact Hs.
      * exact Hd.
      * intros [|j] Hj; simpl.
        -- exact Hlt.
        -- apply Hearlier. lia.
    + inversion H; subst s'. exists O. repeat split.
      * lia.
      * exact Hge.
      * intros j Hj. lia.
Qed.

(** The loop exits at the first test that sees a difference of at least
    [cycles], given fuel for that many tests. *)
Lemma spin_returns (start cycles : Z) (k : nat) :
  forall (i : nat) (s : hw) (fuel : nat),
    cycles <= U.sub32 (DWT_CYCCNT (at_poll env k i s)) start ->
    (k < fuel)%nat ->
    exists s' : hw, spin env start cycles fuel i s = Some s'.
Proof.
  induction k as [|k IH]; intros i s fuel Hd Hk;
    (destruct fuel as [|fuel]; [lia|]); simpl;
    destruct (Z.ltb_spec (U.sub32 (DWT_CYCCNT (count_cycles (env i) s)) start)
                cycles) as [Hlt | Hge].
  - simpl in Hd. lia.
  - eexists; reflexivity.
  - apply IH; [exact Hd | lia].
  - eexists; reflexivity.
Qed.

End DelayFacts.

Lemma delay_cycles_returns (p : platform) (env : nat -> N)
      (cycles : Z) (s : hw) (k fuel : nat) :
  cycles <= U.sub32 (DWT_CYCCNT (at_poll env k 0 s)) (DWT_CYCCNT s) ->
  (k < fuel)%nat ->
  exists s' : hw, cm4u_delay_cycles p env fuel cycles s = Some s'.
Proof.
  intros Hd Hk. unfold cm4u_delay_cycles.
  destruct (has_DWT p).
  - simpl. apply (spin_returns env _ _ k); assumption.
  - eexists; reflexivity.
Qed.

Lemma delay_cycles_absent (p : platform) (env : nat -> N)
      (fuel : nat) (cycles : Z) (s : hw) :
  has_DWT p = false -> cm4u_delay_cycles p env fuel cycles s = Some s.
Proof. intros H. unfold cm4u_delay_cycles. rewrite H. reflexivity. Qed.

(** C3. On a device with the DWT unit (the build in which the function
    takes a start reading and spins), whenever [cm4u_delay_cycles cycles]
    returns, it returns from the first loop test at which the difference
    between the current reading and the start reading, reduced modulo
    [2^32], is at least [cycles]: that difference is at least [cycles] at
    the exit and was smaller at every earlier test. It is the number of
    cycles counted since the start reading modulo [2^32], so at least
    [cycles] cycles have been counted when the function returns. *)
Theorem delay_cycles_never_early (p : platform) (env : nat -> N)
        (fuel : nat) (cycles : Z) (s s' : hw) :
  has_DWT p = true ->
  cm4u_delay_cycles p env fuel cycles s = Some s' ->
  exists k : nat,
    (k < fuel)%nat /\
    s' = at_poll env k 0 s /\
    cycles <= (DWT_CYCCNT s' - DWT_CYCCNT s) mod 2 ^ 32 /\
    (forall j : nat, (j < k)%nat ->
       (DWT_CYCCNT (at_poll env j 0 s) - DWT_CYCCNT s) mod 2 ^ 32 < cycles) /\
    (DWT_CYCCNT s' - DWT_CYCCNT s) mod 2 ^ 32
    = (counted s' - counted s) mod 2 ^ 32 /\
    cycles <= counted s' - counted s.
Proof.
  intros Hp H. unfold cm4u_delay_cycles in H. rewrite Hp in H. simpl in H.
  apply spin_exit in H. destruct H as (k & Hk & Hs & Hd & Hearlier).
  assert (Ht : tracks s s')
    by (rewrite Hs; apply at_poll_tracks, tracks_refl).
  exists k.
  split; [exact Hk|]. split; [exact Hs|]. split; [exact Hd|].
  split; [exact Hearlier|]. split.
  - exact (tracks_diff s s' Ht).
  - eapply Z.le_trans; [exact Hd|]. apply tracks_elapsed, Ht.
Qed.

Lemma delay_cycles_never_early_witness :
  has_DWT stm32f4 = true /\
  cm4u_delay_cycles stm32f4 three_per_read 10 20 near_wrap
  = Some (count_cycles 21 near_wrap) /\
  exists k : nat,
    (k < 10)%nat /\
    count_cycles 21 near_wrap = at_poll three_per_read k 0 near_wrap /\
    20 <= (DWT_CYCCNT (count_cycles 21 near_wrap) - DWT_CYCCNT near_wrap)
          mod 2 ^ 32 /\
    (forall j : nat, (j < k)%nat ->
       (DWT_CYCCNT (at_poll three_per_read j 0 near_wrap)
        - DWT_CYCCNT near_wrap) mod 2 ^ 32 < 20) /\
    (DWT_CYCCNT (count_cycles 21 near_wrap) - DWT_CYCCNT near_wrap)
      mod 2 ^ 32
    = (counted (count_cycles 21 near_wrap) - counted near_wrap) mod 2 ^ 32 /\
    20 <= counted (count_cycles 21 near_wrap) - counted near_wrap.
Proof.
  split; [reflexivity|]. split; [vm_compute; reflexivity|].
  apply (delay_cycles_never_early stm32f4 three_per_read 10 20 near_wrap
           (count_cycles 21 near_wrap)).
  - reflexivity.
  - vm_compute. reflexivity.
Defined.

(* ------------------------------------------------------------------------ *)
(** * Further properties of the header *)

(** ** Conversions: rounding, truncation, monotonicity *)

(** X1. As long as the exact quotient fits in 32 bits,
    [cm4u_us_to_cycles] rounds down and is less than one cycle short:
    [c * 1_000_000 <= core_clock_hz * us < (c + 1) * 1_000_000]. *)
Theorem us_to_cycles_rounds_down (us core_clock_hz : Z) :
  U.is_u32 us -> U.is_u32 core_clock_hz ->
  core_clock_hz * us / 1000000 < 2 ^ 32 ->
  let c := cm4u_us_to_cycles us core_clock_hz in
  c * 1000000 <= core_clock_hz * us < (c + 1) * 1000000.
Proof.
  intros Hu Hc Hfit c. subst c.
  rewrite us_to_cycles_u32 by assumption.
  destruct Hu as [Hu0 _], Hc as [Hc0 _].
  rewrite to_u32_small
    by (split; [apply Z.div_pos; [apply Z.mul_nonneg_nonneg; assumption | lia]
               | exact Hfit]).
  pose proof (Z.div_mod (core_clock_hz * us) 1000000 ltac:(lia)) as E.
  pose proof (Z.mod_pos_bound (core_clock_hz * us) 1000000 ltac:(lia)) as B.
  lia.
Qed.

Lemma us_to_cycles_rounds_down_witness :
  U.is_u32 7 /\ U.is_u32 72000001 /\
  72000001 * 7 / 1000000 < 2 ^ 32 /\
  cm4u_us_to_cycles 7 72000001 * 1000000 <= 72000001 * 7
    < (cm4u_us_to_cycles 7 72000001 + 1) * 1000000.
Proof.
  assert (Hu : U.is_u32 7) by (unfold U.is_u32, U.two32; lia).
  assert (Hc : U.is_u32 72000001) by (unfold U.is_u32, U.two32; lia).
  assert (Hf : 72000001 * 7 / 1000000 < 2 ^ 32) by reflexivity.
  split; [exact Hu|]. split; [exact Hc|]. split; [exact Hf|].
  exact (us_to_cycles_rounds_down 7 72000001 Hu Hc Hf).
Defined.

(** X2. The same for [cm4u_ms_to_cycles] with divisor 1000. *)
Theorem ms_to_cycles_rounds_down (ms core_clock_hz : Z) :
  U.is_u32 ms -> U.is_u32 core_clock_hz ->
  core_clock_hz * ms / 1000 < 2 ^ 32 ->
  let c := cm4u_ms_to_cycles ms core_clock_hz in
  c * 1000 <= core_clock_hz * ms < (c + 1) * 1000.
Proof.
  intros Hm Hc Hfit c. subst c.
  rewrite ms_to_cycles_u32 by assumption.
  destruct Hm as [Hm0 _], Hc as [Hc0 _].
  rewrite to_u32_small
    by (split; [apply Z.div_pos; [apply Z.mul_nonneg_nonneg; assumption | lia]
               | exact Hfit]).
  pose proof (Z.div_mod (core_clock_hz * ms) 1000 ltac:(lia)) as E.
  pose proof (Z.mod_pos_bound (core_clock_hz * ms) 1000 ltac:(lia)) as B.
  lia.
Qed.

Lemma ms_to_cycles_rounds_down_witness :
  U.is_u32 3 /\ U.is_u32 32768 /\
  32768 * 3 / 1000 < 2 ^ 32 /\
  cm4u_ms_to_cycles 3 32768 * 1000 <= 32768 * 3
    < (cm4u_ms_to_cycles 3 32768 + 1) * 1000.
Proof.
  assert (Hm : U.is_u32 3) by (unfold U.is_u32, U.two32; lia).
  assert (Hc : U.is_u32 32768) by (unfold U.is_u32, U.two32; lia).
  assert (Hf : 32768 * 3 / 1000 < 2 ^ 32) by reflexivity.
  split; [exact Hm|]. split; [exact Hc|]. split; [exact Hf|].
  exact (ms_to_cycles_rounds_down 3 32768 Hm Hc Hf).
Defined.

(** X3. The header's "no overflow protection": on [uint32_t] inputs
    [cm4u_us_to_cycles] returns the exact floor of
    [core_clock_hz * us / 1_000_000] if and only if that floor is below
    [2^32]; otherwise the returned value is strictly smaller. *)
Theorem us_to_cycles_exact_iff_fits (us core_clock_hz : Z) :
  U.is_u32 us -> U.is_u32 core_clock_hz ->
  (cm4u_us_to_cycles us core_clock_hz = core_clock_hz * us / 1000000
   <-> core_clock_hz * us / 1000000 < 2 ^ 32) /\
  cm4u_us_to_cycles us core_clock_hz <= core_clock_hz * us / 1000000.
Proof.
  intros Hu Hc. rewrite us_to_cycles_u32 by assumption.
  assert (Hq : 0 <= core_clock_hz * us / 1000000).
  { apply Z.div_pos; [|lia].
    apply Z.mul_nonneg_nonneg; [apply Hc | apply Hu]. }
  split; [split|].
  - intros E. rewrite <- E. apply to_u32_range.
  - intros Hfit. apply to_u32_small. split; assumption.
  - apply to_u32_le, Hq.
Qed.

Lemma us_to_cycles_exact_iff_fits_witness :
  U.is_u32 4294967295 /\ U.is_u32 168000000 /\
  cm4u_us_to_cycles 4294967295 168000000 < 168000000 * 4294967295 / 1000000.
Proof.
  assert (Hu : U.is_u32 4294967295) by (unfold U.is_u32, U.two32; lia).
  assert (Hc : U.is_u32 168000000) by (unfold U.is_u32, U.two32; lia).
  split; [exact Hu|]. split; [exact Hc|].
  destruct (us_to_cycles_exact_iff_fits 4294967295 168000000 Hu Hc)
    as [[Hexact _] Hle].
  apply Z.le_neq. split; [exact Hle|].
  intros E. apply Hexact in E. vm_compute in E. discriminate E.
Defined.

(** X4. One second is the clock frequency: for a [uint32_t] clock,
    a duration of at most 1_000_000 microseconds (1000 milliseconds)
    converts to at most [core_clock_hz] cycles, and exactly one second
    converts to exactly [core_clock_hz]. *)
Theorem one_second_is_core_clock (core_clock_hz : Z) :
  U.is_u32 core_clock_hz ->
  cm4u_us_to_cycles 1000000 core_clock_hz = core_clock_hz /\
  cm4u_ms_to_cycles 1000 core_clock_hz = core_clock_hz /\
  (forall us, 0 <= us <= 1000000 ->
     cm4u_us_to_cycles us core_clock_hz <= core_clock_hz) /\
  (forall ms, 0 <= ms <= 1000 ->
     cm4u_ms_to_cycles ms core_clock_hz <= core_clock_hz).
Proof.
  intros Hc.
  assert (H6 : U.is_u32 1000000) by (unfold U.is_u32, U.two32; lia).
  assert (H3 : U.is_u32 1000) by (unfold U.is_u32, U.two32; lia).
  repeat split.
  - rewrite us_to_cycles_u32 by assumption.
    rewrite Z.div_mul by lia. apply to_u32_small, Hc.
  - rewrite ms_to_cycles_u32 by assumption.
    rewrite Z.div_mul by lia. apply to_u32_small, Hc.
  - intros us Hus.
    assert (Hu : U.is_u32 us) by (unfold U.is_u32, U.two32; lia).
    rewrite us_to_cycles_u32 by assumption.
    destruct Hc as [Hc0 Hc1].
    eapply Z.le_trans; [apply to_u32_le, Z.div_pos; nia|].
    apply Z.div_le_upper_bound; nia.
  - intros ms Hms.
    assert (Hm : U.is_u32 ms) by (unfold U.is_u32, U.two32; lia).
    rewrite ms_to_cycles_u32 by assumption.
    destruct Hc as [Hc0 Hc1].
    eapply Z.le_trans; [apply to_u32_le, Z.div_pos; nia|].
    apply Z.div_le_upper_bound; nia.
Qed.

Lemma one_second_is_core_clock_witness :
  U.is_u32 168000000 /\
  cm4u_us_to_cycles 1000000 168000000 = 168000000.
Proof.
  assert (Hc : U.is_u32 168000000) by (unfold U.is_u32, U.two32; lia).
  split; [exact Hc|].
  exact (proj1 (one_second_is_core_clock 168000000 Hc)).
Defined.

(** X5. Splitting a duration never lengthens it: when the whole converts
    without truncation, the cycle counts of two parts add up to the
    cycle count of their sum or to one less. *)
Theorem us_to_cycles_split (a b core_clock_hz : Z) :
  U.is_u32 a -> U.is_u32 b -> U.is_u32 (a + b) ->
  U.is_u32 core_clock_hz ->
  core_clock_hz * (a + b) / 1000000 < 2 ^ 32 ->
  cm4u_us_to_cycles a core_clock_hz + cm4u_us_to_cycles b core_clock_hz
    <= cm4u_us_to_cycles (a + b) core_clock_hz
    <= cm4u_us_to_cycles a core_clock_hz + cm4u_us_to_cycles b core_clock_hz
       + 1.
Proof.
  intros Ha Hb Hab Hc Hfit.
  rewrite !us_to_cycles_u32 by assumption.
  destruct Ha as [Ha0 _], Hb as [Hb0 _], Hc as [Hc0 _].
  pose proof (Z.div_mod (core_clock_hz * a) 1000000 ltac:(lia)) as Ea.
  pose proof (Z.mod_pos_bound (core_clock_hz * a) 1000000 ltac:(lia)) as Ba.
  pose proof (Z.div_mod (core_clock_hz * b) 1000000 ltac:(lia)) as Eb.
  pose proof (Z.mod_pos_bound (core_clock_hz * b) 1000000 ltac:(lia)) as Bb.
  pose proof (Z.div_mod (core_clock_hz * (a + b)) 1000000 ltac:(lia)) as Es.
  pose proof (Z.mod_pos_bound (core_clock_hz * (a + b)) 1000000 ltac:(lia))
    as Bs.
  assert (Hqa : 0 <= core_clock_hz * a / 1000000)
    by (apply Z.div_pos; [apply Z.mul_nonneg_nonneg; assumption | lia]).
  assert (Hqb : 0 <= core_clock_hz * b / 1000000)
    by (apply Z.div_pos; [apply Z.mul_nonneg_nonneg; assumption | lia]).
  assert (Hsum : core_clock_hz * (a + b)
                 = core_clock_hz * a + core_clock_hz * b) by lia.
  change (2 ^ 32) with U.two32 in Hfit.
  rewrite !to_u32_small by (unfold U.is_u32; lia).
  lia.
Qed.

Lemma us_to_cycles_split_witness :
  U.is_u32 7 /\ U.is_u32 5 /\ U.is_u32 (7 + 5) /\ U.is_u32 72000001 /\
  cm4u_us_to_cycles 7 72000001 + cm4u_us_to_cycles 5 72000001
    <= cm4u_us_to_cycles (7 + 5) 72000001.
Proof.
  assert (H7 : U.is_u32 7) by (unfold U.is_u32, U.two32; lia).
  assert (H5 : U.is_u32 5) by (unfold U.is_u32, U.two32; lia).
  assert (H12 : U.is_u32 (7 + 5)) by (unfold U.is_u32, U.two32; lia).
  assert (Hc : U.is_u32 72000001) by (unfold U.is_u32, U.two32; lia).
  split; [exact H7|]. split; [exact H5|]. split; [exact H12|].
  split; [exact Hc|].
  exact (proj1 (us_to_cycles_split 7 5 72000001 H7 H5 H12 Hc eq_refl)).
Defined.

(* ------------------------------------------------------------------------ *)
(** ** Profiling across any number of wrap-arounds *)

(** X6. With the DWT present, [cm4u_profile_cycles_end] started from a
    reading of the counter returns the number of cycles counted since
    that reading modulo [2^32], whatever that number is: an interval of
    [2^32] cycles or more is under-reported by a multiple of [2^32]. *)
Theorem profile_reports_elapsed_mod_2_32 (p : platform) (s : hw) (n : N) :
  has_DWT p = true ->
  let (start, s0) := cm4u_profile_cycles_start p s in
  cm4u_profile_cycles_end p start (count_cycles n s0)
  = (Z.of_N n mod 2 ^ 32, count_cycles n s).
Proof.
  intros Hp. unfold cm4u_profile_cycles_start.
  rewrite get_cycles_present by exact Hp.
  rewrite profile_cycles_end_eq, get_cycles_present by exact Hp.
  cbn [fst]. f_equal.
  rewrite (tracks_diff s (count_cycles n s))
    by (apply tracks_count, tracks_refl).
  rewrite count_cycles_counted. unfold U.to_u32. f_equal. lia.
Qed.

Lemma profile_reports_elapsed_mod_2_32_witness :
  has_DWT stm32f4 = true /\
  cm4u_profile_cycles_end stm32f4 0xFFFFFFF0 (count_cycles 40 near_wrap)
  = (40, count_cycles 40 near_wrap).
Proof.
  split; [reflexivity|].
  exact (profile_reports_elapsed_mod_2_32 stm32f4 near_wrap 40 eq_refl).
Defined.

(* ------------------------------------------------------------------------ *)
(** ** The busy-wait loop: edge cases, progress and overshoot *)

Lemma count_cycles_regs_kept (n : N) (s : hw) : regs_kept s (count_cycles n s).
Proof.
  induction n as [|n IH] using N.peano_ind.
  - repeat split.
  - rewrite count_cycles_succ. destruct IH as (H1 & H2 & H3).
    repeat split; simpl; assumption.
Qed.

Lemma regs_kept_trans (s1 s2 s3 : hw) :
  regs_kept s1 s2 -> regs_kept s2 s3 -> regs_kept s1 s3.
Proof.
  intros (A1 & A2 & A3) (B1 & B2 & B3).
  repeat split; etransitivity; eassumption.
Qed.

Lemma at_poll_regs_kept (env : nat -> N) (k : nat) :
  forall (i : nat) (s : hw), regs_kept s (at_poll env k i s).
Proof.
  induction k as [|k IH]; intros i s; simpl.
  - apply count_cycles_regs_kept.
  - eapply regs_kept_trans; [apply count_cycles_regs_kept | apply IH].
Qed.

(** X7. A delay of zero cycles returns from its first loop test, whatever
    the clock does. *)
Theorem delay_zero_cycles_one_test (p : platform) (env : nat -> N)
        (fuel : nat) (s : hw) :
  has_DWT p = true ->
  cm4u_delay_cycles p env (S fuel) 0 s = Some (count_cycles (env O) s).
Proof.
  intros Hp. unfold cm4u_delay_cycles. rewrite Hp. simpl.
  destruct (Z.ltb_spec
              (U.sub32 (DWT_CYCCNT (count_cycles (env O) s)) (DWT_CYCCNT s)) 0)
    as [Hlt | _]; [|reflexivity].
  pose proof (to_u32_range
                (DWT_CYCCNT (count_cycles (env O) s) - DWT_CYCCNT s)) as [H0 _].
  unfold U.sub32 in Hlt. lia.
Qed.

Lemma delay_zero_cycles_one_test_witness :
  has_DWT stm32f4 = true /\
  cm4u_delay_cycles stm32f4 three_per_read 1 0 near_wrap
  = Some (count_cycles 3 near_wrap).
Proof.
  split; [reflexivity|].
  exact (delay_zero_cycles_one_test stm32f4 three_per_read 0 near_wrap eq_refl).
Defined.

Lemma spin_stalled (env : nat -> N) (cycles : Z) (s : hw) :
  (forall i, env i = 0%N) -> 0 < cycles ->
  forall (fuel i : nat), spin env (DWT_CYCCNT s) cycles fuel i s = None.
Proof.
  intros Henv Hpos. induction fuel as [|fuel IH]; intros i; simpl.
  - reflexivity.
  - rewrite Henv. change (count_cycles 0 s) with s.
    unfold U.sub32. rewrite Z.sub_diag.
    change (U.to_u32 0) with 0.
    destruct (Z.ltb_spec 0 cycles) as [_ | Hge]; [apply IH | lia].
Qed.

(** X8. If the counter does not count (it was never enabled), a delay of
    one cycle or more never returns: the loop is still spinning after any
    number of tests. *)
Theorem delay_never_returns_when_stalled (p : platform) (env : nat -> N)
        (cycles : Z) (s : hw) (fuel : nat) :
  has_DWT p = true ->
  (forall i, env i = 0%N) ->
  0 < cycles ->
  cm4u_delay_cycles p env fuel cycles s = None.
Proof.
  intros Hp Henv Hpos. unfold cm4u_delay_cycles. rewrite Hp. simpl.
  apply spin_stalled; assumption.
Qed.

Lemma delay_never_returns_when_stalled_witness :
  has_DWT stm32f4 = true /\
  (forall i, stalled i = 0%N) /\
  0 < 1 /\
  cm4u_delay_cycles stm32f4 stalled 1000 1 reset_state = None.
Proof.
  assert (Hst : forall i, stalled i = 0%N) by reflexivity.
  split; [reflexivity|]. split; [exact Hst|]. split; [reflexivity|].
  exact (delay_never_returns_when_stalled stm32f4 stalled 1 reset_state 1000
           eq_refl Hst eq_refl).
Defined.

Section Overshoot.

Variable env : nat -> N.
Variable d cycles : Z.
Variable s0 : hw.
Hypothesis Hstep : forall i, Z.of_N (env i) <= d.
Hypothesis Hcycles : 0 <= cycles.
Hypothesis Hroom : cycles + d < 2 ^ 32.

Lemma poll_exact (i : nat) (s : hw) :
  tracks s0 s -> counted s - counted s0 <= cycles ->
  tracks s0 (count_cycles (env i) s) /\
  U.sub32 (DWT_CYCCNT (count_cycles (env i) s)) (DWT_CYCCNT s0)
  = counted s - counted s0 + Z.of_N (env i).
Proof.
  intros Ht He.
  assert (Ht' : tracks s0 (count_cycles (env i) s))
    by (apply tracks_count, Ht).
  split; [exact Ht'|].
  rewrite (tracks_diff _ _ Ht'), count_cycles_counted.
  destruct Ht as [Hle _]. pose proof (Hstep i).
  replace (counted s + Z.of_N (env i) - counted s0)
    with (counted s - counted s0 + Z.of_N (env i)) by lia.
  apply to_u32_small. unfold U.is_u32.
  change U.two32 with (2 ^ 32). lia.
Qed.

Lemma spin_overshoot (fuel : nat) :
  forall (i : nat) (s s' : hw),
    tracks s0 s -> counted s - counted s0 <= cycles ->
    spin env (DWT_CYCCNT s0) cycles fuel i s = Some s' ->
    cycles <= counted s' - counted s0 <= cycles + d /\
    U.sub32 (DWT_CYCCNT s') (DWT_CYCCNT s0) = counted s' - counted s0.
Proof.
  induction fuel as [|fuel IH]; intros i s s' Ht He H; simpl in H.
  - discriminate H.
  - destruct (poll_exact i s Ht He) as [Ht' Hd].
    pose proof (count_cycles_counted (env i) s) as Hc.
    pose proof (Hstep i) as Hs.
    destruct (Z.ltb_spec
                (U.sub32 (DWT_CYCCNT (count_cycles (env i) s)) (DWT_CYCCNT s0))
                cycles) as [Hlt | Hge].
    + apply (IH (S i) _ s' Ht'); [lia | exact H].
    + inversion H; subst s'. split; [lia|]. rewrite Hd. lia.
Qed.

Hypothesis Hrun : forall i, 1 <= Z.of_N (env i).

Lemma spin_terminates (fuel : nat) :
  forall (i : nat) (s : hw),
    tracks s0 s -> counted s - counted s0 <= cycles ->
    cycles - (counted s - counted s0) < Z.of_nat fuel ->
    exists s', spin env (DWT_CYCCNT s0) cycles fuel i s = Some s'.
Proof.
  induction fuel as [|fuel IH]; intros i s Ht He Hf.
  - simpl in Hf. lia.
  - simpl.
    destruct (poll_exact i s Ht He) as [Ht' Hd].
    pose proof (count_cycles_counted (env i) s) as Hc.
    pose proof (Hrun i) as Hr.
    destruct (Z.ltb_spec
                (U.sub32 (DWT_CYCCNT (count_cycles (env i) s)) (DWT_CYCCNT s0))
                cycles) as [Hlt | Hge].
    + apply (IH (S i) _ Ht'); lia.
    + eexists; reflexivity.
Qed.

End Overshoot.

(** X9. Bounded overshoot. With the DWT present, if the counter counts at
    most [d] cycles between two consecutive reads and [cycles + d < 2^32],
    then a delay that returns has waited at least [cycles] and at most
    [cycles + d] counted cycles, and the 32-bit difference it last
    computed is the exact number of cycles counted. *)
Theorem delay_overshoot_bounded (p : platform) (env : nat -> N)
        (d cycles : Z) (fuel : nat) (s s' : hw) :
  has_DWT p = true ->
  (forall i, Z.of_N (env i) <= d) ->
  0 <= cycles ->
  cycles + d < 2 ^ 32 ->
  cm4u_delay_cycles p env fuel cycles s = Some s' ->
  cycles <= counted s' - counted s <= cycles + d /\
  U.sub32 (DWT_CYCCNT s') (DWT_CYCCNT s) = counted s' - counted s.
Proof.
  intros Hp Hstep Hc Hroom H.
  unfold cm4u_delay_cycles in H. rewrite Hp in H. simpl in H.
  apply (spin_overshoot env d cycles s Hstep Hroom fuel O s s');
    [apply tracks_refl | lia | exact H].
Qed.

Lemma delay_overshoot_bounded_witness :
  has_DWT stm32f4 = true /\
  (forall i, Z.of_N (three_per_read i) <= 3) /\
  20 + 3 < 2 ^ 32 /\
  cm4u_delay_cycles stm32f4 three_per_read 10 20 near_wrap
  = Some (count_cycles 21 near_wrap) /\
  20 <= counted (count_cycles 21 near_wrap) - counted near_wrap <= 20 + 3.
Proof.
  assert (Hstep : forall i, Z.of_N (three_per_read i) <= 3)
    by (intros i; simpl; lia).
  assert (Hrun : cm4u_delay_cycles stm32f4 three_per_read 10 20 near_wrap
                 = Some (count_cycles 21 near_wrap))
    by (vm_compute; reflexivity).
  split; [reflexivity|]. split; [exact Hstep|]. split; [reflexivity|].
  split; [exact Hrun|].
  exact (proj1 (delay_overshoot_bounded stm32f4 three_per_read 3 20 10
                  near_wrap (count_cycles 21 near_wrap)
                  eq_refl Hstep ltac:(lia) eq_refl Hrun)).
Defined.

(** X10. Progress. With the DWT present, if the counter counts at least
    one and at most [d] cycles between two consecutive reads and
    [cycles + d < 2^32], then the delay returns within [cycles + 1] loop
    tests. *)
Theorem delay_returns_when_clock_runs (p : platform) (env : nat -> N)
        (d cycles : Z) (fuel : nat) (s : hw) :
  has_DWT p = true ->
  (forall i, 1 <= Z.of_N (env i) <= d) ->
  0 <= cycles ->
  cycles + d < 2 ^ 32 ->
  cycles < Z.of_nat fuel ->
  exists s', cm4u_delay_cycles p env fuel cycles s = Some s'.
Proof.
  intros Hp Henv Hc Hroom Hfuel.
  unfold cm4u_delay_cycles. rewrite Hp. simpl.
  apply (spin_terminates env d cycles s);
    try assumption; try (intros i; apply Henv);
    [apply tracks_refl | lia | lia].
Qed.

Lemma delay_returns_when_clock_runs_witness :
  has_DWT stm32f4 = true /\
  (forall i, 1 <= Z.of_N (three_per_read i) <= 3) /\
  exists s', cm4u_delay_cycles stm32f4 three_per_read 21 20 near_wrap = Some s'.
Proof.
  assert (Henv : forall i, 1 <= Z.of_N (three_per_read i) <= 3)
    by (intros i; simpl; lia).
  split; [reflexivity|]. split; [exact Henv|].
  apply (delay_returns_when_clock_runs stm32f4 three_per_read 3 20 21
           near_wrap eq_refl Henv); [lia | reflexivity | reflexivity].
Defined.

(** X11. On every platform, a delay that returns has left the interrupt
    mask and the debug control registers as it found them: it neither
    enables nor disables interrupts. *)
Theorem delay_keeps_control_registers (p : platform) (env : nat -> N)
        (fuel : nat) (cycles : Z) (s s' : hw) :
  cm4u_delay_cycles p env fuel cycles s = Some s' ->
  regs_kept s s'.
Proof.
  intros H. unfold cm4u_delay_cycles in H.
  destruct (has_DWT p).
  - simpl in H. apply spin_exit in H.
    destruct H as (k & _ & Hs & _). rewrite Hs. apply at_poll_regs_kept.
  - inversion H; subst s'. repeat split.
Qed.

Lemma delay_keeps_control_registers_witness :
  cm4u_delay_cycles stm32f4 three_per_read 10 20
    (snd (cm4u_critical_enter near_wrap))
  = Some (count_cycles 21 (snd (cm4u_critical_enter near_wrap))) /\
  PRIMASK (count_cycles 21 (snd (cm4u_critical_enter near_wrap))) = true.
Proof.
  assert (Hrun : cm4u_delay_cycles stm32f4 three_per_read 10 20
                   (snd (cm4u_critical_enter near_wrap))
                 = Some (count_cycles 21 (snd (cm4u_critical_enter near_wrap))))
    by (vm_compute; reflexivity).
  split; [exact Hrun|].
  exact (proj1 (delay_keeps_control_registers stm32f4 three_per_read 10 20
                  _ _ Hrun)).
Defined.

(** X12. [cm4u_delay_us] and [cm4u_delay_ms] compose a conversion with
    the cycle delay: with the DWT present and [uint32_t] arguments, when
    either returns the counter has counted at least the truncated floor of
    [core_clock_hz * t / 1_000_000] (resp. [/ 1000]) cycles. *)
Theorem delay_us_ms_wait_converted_cycles (p : platform) (env : nat -> N)
        (fuel : nat) (t core_clock_hz : Z) (s s' : hw) :
  has_DWT p = true ->
  U.is_u32 t -> U.is_u32 core_clock_hz ->
  (cm4u_delay_us p env fuel t core_clock_hz s = Some s' ->
   (core_clock_hz * t / 1000000) mod 2 ^ 32 <= counted s' - counted s) /\
  (cm4u_delay_ms p env fuel t core_clock_hz s = Some s' ->
   (core_clock_hz * t / 1000) mod 2 ^ 32 <= counted s' - counted s).
Proof.
  intros Hp Ht Hc.
  assert (Hwait : forall cycles,
             cm4u_delay_cycles p env fuel cycles s = Some s' ->
             cycles <= counted s' - counted s).
  { intros cycles H. unfold cm4u_delay_cycles in H. rewrite Hp in H.
    simpl in H. apply spin_exit in H.
    destruct H as (k & _ & Hs & Hd & _).
    eapply Z.le_trans; [exact Hd|].
    apply tracks_elapsed. rewrite Hs. apply at_poll_tracks, tracks_refl. }
  split; intros H.
  - unfold cm4u_delay_us in H. apply Hwait in H.
    rewrite us_to_cycles_u32 in H by assumption. exact H.
  - unfold cm4u_delay_ms in H. apply Hwait in H.
    rewrite ms_to_cycles_u32 in H by assumption. exact H.
Qed.

Lemma delay_us_ms_wait_converted_cycles_witness :
  has_DWT stm32f4 = true /\
  U.is_u32 1 /\ U.is_u32 20000000 /\
  cm4u_delay_us stm32f4 three_per_read 10 1 20000000 near_wrap
  = Some (count_cycles 21 near_wrap) /\
  (20000000 * 1 / 1000000) mod 2 ^ 32
  <= counted (count_cycles 21 near_wrap) - counted near_wrap.
Proof.
  assert (Ht : U.is_u32 1) by (unfold U.is_u32, U.two32; lia).
  assert (Hc : U.is_u32 20000000) by (unfold U.is_u32, U.two32; lia).
  assert (Hrun : cm4u_delay_us stm32f4 three_per_read 10 1 20000000 near_wrap
                 = Some (count_cycles 21 near_wrap))
    by (vm_compute; reflexivity).
  split; [reflexivity|]. split; [exact Ht|]. split; [exact Hc|].
  split; [exact Hrun|].
  exact (proj1 (delay_us_ms_wait_converted_cycles stm32f4 three_per_read 10
                  1 20000000 near_wrap (count_cycles 21 near_wrap)
                  eq_refl Ht Hc) Hrun).
Defined.

(** X13. Without the DWT all three delays are no-ops: they return at
    once, before any loop test, with every register unchanged, whatever
    duration was asked for. *)
Theorem delays_without_dwt_are_noops (p : platform) (env : nat -> N)
        (fuel : nat) (t core_clock_hz : Z) (s : hw) :
  has_DWT p = false ->
  cm4u_delay_cycles p env fuel t s = Some s /\
  cm4u_delay_us p env fuel t core_clock_hz s = Some s /\
  cm4u_delay_ms p env fuel t core_clock_hz s = Some s.
Proof.
  intros Hp. unfold cm4u_delay_us, cm4u_delay_ms.
  rewrite !delay_cycles_absent by exact Hp. repeat split.
Qed.

Lemma delays_without_dwt_are_noops_witness :
  has_DWT no_dwt = false /\
  cm4u_delay_ms no_dwt stalled 0 1000 168000000 reset_state = Some reset_state.
Proof.
  split; [reflexivity|].
  exact (proj2 (proj2 (delays_without_dwt_are_noops no_dwt stalled 0 1000
                         168000000 reset_state eq_refl))).
Defined.

(* ------------------------------------------------------------------------ *)
(** ** Initialisation *)

Lemma to_u32_land_ones (x : Z) : U.to_u32 x = Z.land x (Z.ones 32).
Proof. unfold U.to_u32, U.two32. symmetry. apply Z.land_ones. lia. Qed.

Lemma and32_or32_mask (x m : Z) : U.and32 (U.or32 x m) m = U.to_u32 m.
Proof.
  unfold U.and32, U.or32. rewrite !to_u32_land_ones.
  apply Z.bits_inj'. intros i _.
  rewrite !Z.land_spec, Z.lor_spec.
  destruct (Z.testbit x i), (Z.testbit m i), (Z.testbit (Z.ones 32) i);
    reflexivity.
Qed.

Lemma or32_or32_mask (x m : Z) : U.or32 (U.or32 x m) m = U.or32 x m.
Proof.
  unfold U.or32. rewrite !to_u32_land_ones.
  apply Z.bits_inj'. intros i _.
  rewrite !Z.land_spec, !Z.lor_spec, Z.land_spec, Z.lor_spec.
  destruct (Z.testbit x i), (Z.testbit m i), (Z.testbit (Z.ones 32) i);
    reflexivity.
Qed.

(** X14. [cm4u_dwt_init] needs both [DWT] and [CoreDebug]: on a device
    whose header defines [DWT] but not [CoreDebug] it returns [false]
    and touches no register, although [cm4u_dwt_get_cycles] still reads
    the live counter there. *)
Theorem dwt_init_needs_coredebug (p : platform) (s : hw) :
  has_DWT p = true -> has_CoreDebug p = false ->
  cm4u_dwt_init p s = (false, s) /\
  cm4u_dwt_get_cycles p s = (DWT_CYCCNT s, s).
Proof.
  intros Hd Hc. split.
  - unfold cm4u_dwt_init. rewrite Hd, Hc. reflexivity.
  - apply get_cycles_present, Hd.
Qed.

Lemma dwt_init_needs_coredebug_witness :
  has_DWT dwt_only = true /\ has_CoreDebug dwt_only = false /\
  cm4u_dwt_init dwt_only near_wrap = (false, near_wrap) /\
  cm4u_dwt_get_cycles dwt_only near_wrap = (0xFFFFFFF0, near_wrap).
Proof.
  split; [reflexivity|]. split; [reflexivity|].
  exact (dwt_init_needs_coredebug dwt_only near_wrap eq_refl eq_refl).
Defined.

(** The state [cm4u_dwt_init] leaves on a device with both units. *)
Lemma dwt_init_state (p : platform) (s : hw) :
  has_DWT p = true -> has_CoreDebug p = true ->
  cm4u_dwt_init p s
  = (true,
     mkHw (PRIMASK s)
          (if U.and32 (DEMCR s) (CoreDebug_DEMCR_TRCENA_Msk p) =? 0
           then U.or32 (DEMCR s) (CoreDebug_DEMCR_TRCENA_Msk p)
           else DEMCR s)
          (U.or32 (DWT_CTRL s) (DWT_CTRL_CYCCNTENA_Msk p))
          0
          (counted s)).
Proof.
  intros Hd Hc. unfold cm4u_dwt_init. rewrite Hd, Hc.
  unfold bind, read, write, ret. cbn [andb].
  destruct (U.and32 (DEMCR s) (CoreDebug_DEMCR_TRCENA_Msk p) =? 0);
    reflexivity.
Qed.

(** X15. After a successful [cm4u_dwt_init] the trace-enable test of
    DEMCR passes (for a mask with a bit in the low 32), every bit of the
    counter-enable mask is set in DWT_CTRL, the counter reads zero, and
    the interrupt mask is untouched. *)
Theorem dwt_init_enables_counter (p : platform) (s : hw) :
  has_DWT p = true -> has_CoreDebug p = true ->
  U.to_u32 (CoreDebug_DEMCR_TRCENA_Msk p) <> 0 ->
  let (ok, s') := cm4u_dwt_init p s in
  ok = true /\
  U.and32 (DEMCR s') (CoreDebug_DEMCR_TRCENA_Msk p) <> 0 /\
  U.and32 (DWT_CTRL s') (DWT_CTRL_CYCCNTENA_Msk p)
  = U.to_u32 (DWT_CTRL_CYCCNTENA_Msk p) /\
  cm4u_dwt_get_cycles p s' = (0, s') /\
  PRIMASK s' = PRIMASK s.
Proof.
  intros Hd Hc Hm. rewrite dwt_init_state by assumption.
  split; [reflexivity|]. cbn [DEMCR DWT_CTRL PRIMASK].
  split; [|split; [apply and32_or32_mask | split; [|reflexivity]]].
  - destruct (Z.eqb_spec (U.and32 (DEMCR s) (CoreDebug_DEMCR_TRCENA_Msk p)) 0)
      as [E | NE].
    + rewrite and32_or32_mask. exact Hm.
    + exact NE.
  - rewrite get_cycles_present by exact Hd. reflexivity.
Qed.

Lemma dwt_init_enables_counter_witness :
  has_DWT stm32f4 = true /\ has_CoreDebug stm32f4 = true /\
  U.to_u32 (CoreDebug_DEMCR_TRCENA_Msk stm32f4) <> 0 /\
  cm4u_dwt_get_cycles stm32f4 (snd (cm4u_dwt_init stm32f4 reset_state))
  = (0, snd (cm4u_dwt_init stm32f4 reset_state)).
Proof.
  assert (Hm : U.to_u32 (CoreDebug_DEMCR_TRCENA_Msk stm32f4) <> 0)
    by (vm_compute; discriminate).
  split; [reflexivity|]. split; [reflexivity|]. split; [exact Hm|].
  pose proof (dwt_init_enables_counter stm32f4 reset_state eq_refl eq_refl Hm)
    as H.
  destruct (cm4u_dwt_init stm32f4 reset_state) as [ok s'].
  exact (proj1 (proj2 (proj2 (proj2 H)))).
Defined.

(** X16. Calling [cm4u_dwt_init] again is a visible reset of the counter
    and nothing else: after a first successful call and any number of
    counted cycles, a second call returns [true], sets the counter back
    to zero and leaves DEMCR, DWT_CTRL and the interrupt mask as the
    first call left them. *)
Theorem dwt_init_again_only_resets_counter (p : platform) (s : hw) (n : N) :
  has_DWT p = true -> has_CoreDebug p = true ->
  let s1 := snd (cm4u_dwt_init p s) in
  let (ok, s2) := cm4u_dwt_init p (count_cycles n s1) in
  ok = true /\ DWT_CYCCNT s2 = 0 /\ regs_kept s1 s2.
Proof.
  intros Hd Hc. cbv zeta.
  rewrite (dwt_init_state p s) by assumption. cbn [snd].
  set (s1 := mkHw _ _ _ _ _).
  rewrite (dwt_init_state p (count_cycles n s1)) by assumption.
  destruct (count_cycles_regs_kept n s1) as (Kp & Kd & Kc).
  rewrite Kp, Kd, Kc.
  split; [reflexivity|]. split; [reflexivity|].
  unfold regs_kept. subst s1. cbn [PRIMASK DEMCR DWT_CTRL].
  split; [reflexivity|]. split.
  - destruct (Z.eqb_spec (U.and32 (DEMCR s) (CoreDebug_DEMCR_TRCENA_Msk p)) 0)
      as [E | NE].
    + destruct (U.and32 (U.or32 (DEMCR s) (CoreDebug_DEMCR_TRCENA_Msk p))
                  (CoreDebug_DEMCR_TRCENA_Msk p) =? 0);
        [apply or32_or32_mask | reflexivity].
    + destruct (Z.eqb_spec
                  (U.and32 (DEMCR s) (CoreDebug_DEMCR_TRCENA_Msk p)) 0)
        as [E' | _]; [contradiction | reflexivity].
  - apply or32_or32_mask.
Qed.

Lemma dwt_init_again_only_resets_counter_witness :
  has_DWT stm32f4 = true /\ has_CoreDebug stm32f4 = true /\
  DWT_CYCCNT (count_cycles 9 (snd (cm4u_dwt_init stm32f4 reset_state))) = 9 /\
  DWT_CYCCNT
    (snd (cm4u_dwt_init stm32f4
            (count_cycles 9 (snd (cm4u_dwt_init stm32f4 reset_state))))) = 0.
Proof.
  split; [reflexivity|]. split; [reflexivity|].
  split; [vm_compute; reflexivity|].
  pose proof (dwt_init_again_only_resets_counter stm32f4 reset_state 9
                eq_refl eq_refl) as H.
  cbv zeta in H.
  destruct (cm4u_dwt_init stm32f4
              (count_cycles 9 (snd (cm4u_dwt_init stm32f4 reset_state))))
    as [ok s2].
  exact (proj1 (proj2 H)).
Defined.

(* ------------------------------------------------------------------------ *)
(** ** Nested critical sections *)

Lemma critical_enter_eq (s : hw) :
  cm4u_critical_enter s = (Z.b2z (PRIMASK s), set_PRIMASK_field true s).
Proof. reflexivity. Qed.

Lemma critical_exit_eq (v : Z) (s : hw) :
  cm4u_critical_exit v s = (tt, set_PRIMASK_field (Z.testbit v 0) s).
Proof. reflexivity. Qed.

Lemma critical_section_restores (s : hw) :
  snd (cm4u_critical_exit (fst (cm4u_critical_enter s))
         (snd (cm4u_critical_enter s))) = s.
Proof.
  rewrite critical_enter_eq, critical_exit_eq. cbn [fst snd].
  rewrite testbit_b2z_0, set_PRIMASK_field_twice.
  apply set_PRIMASK_field_same.
Qed.

(** X17. Critical sections nest when each exit gets the value of its own
    enter: the inner enter returns 1, the inner exit leaves interrupts
    disabled, and the outer exit gives back the state from before the
    outer enter. *)
Theorem critical_sections_nest (s : hw) :
  let (outer, s1) := cm4u_critical_enter s in
  let (inner, s2) := cm4u_critical_enter s1 in
  let (_, s3) := cm4u_critical_exit inner s2 in
  let (_, s4) := cm4u_critical_exit outer s3 in
  inner = 1 /\ PRIMASK s3 = true /\ s4 = s.
Proof.
  rewrite !critical_enter_eq, !critical_exit_eq.
  cbn [PRIMASK set_PRIMASK_field].
  split; [reflexivity|]. split; [reflexivity|].
  rewrite testbit_b2z_0. destruct s; reflexivity.
Qed.

(** X18. Exiting in the wrong order loses the caller's mask: if the
    outer value is restored first and the inner value last, interrupts
    end up disabled whatever the state was before. *)
Theorem critical_exits_swapped_leave_masked (s : hw) :
  let (outer, s1) := cm4u_critical_enter s in
  let (inner, s2) := cm4u_critical_enter s1 in
  let (_, s3) := cm4u_critical_exit outer s2 in
  let (_, s4) := cm4u_critical_exit inner s3 in
  fst (cm4u_get_primask s4) = 1.
Proof.
  rewrite !critical_enter_eq, !critical_exit_eq.
  reflexivity.
Qed.

(* ------------------------------------------------------------------------ *)
(** ** Mode and stack-pointer queries *)

Lemma and32_low_bits (x : Z) (n : Z) :
  0 <= n <= 32 -> U.and32 x (Z.ones n) = x mod 2 ^ n.
Proof.
  intros Hn. unfold U.and32. rewrite Z.land_ones by lia.
  apply to_u32_small.
  pose proof (Z.mod_pos_bound x (2 ^ n) ltac:(apply Z.pow_pos_nonneg; lia)).
  assert (2 ^ n <= 2 ^ 32) by (apply Z.pow_le_mono_r; lia).
  unfold U.is_u32, U.two32. lia.
Qed.

(** X19. The exception number is always below 512, whatever value the
    IPSR read returns. *)
Theorem exception_number_below_512 (c : core_regs) :
  0 <= cm4u_get_exception_number c < 512.
Proof.
  unfold cm4u_get_exception_number.
  change 0x1FF with (Z.ones 9). rewrite and32_low_bits by lia.
  apply Z.mod_pos_bound. reflexivity.
Qed.

(** X20. When the IPSR read has no bit above bit 8 (the register is nine
    bits wide), the queries agree with each other: the exception number
    is the IPSR value, thread mode is exception number 0, and handler
    mode is the negation of thread mode. *)
Theorem mode_queries_agree (c : core_regs) :
  0 <= IPSR c < 512 ->
  cm4u_get_exception_number c = cm4u_get_ipsr c /\
  cm4u_in_thread_mode c = (cm4u_get_exception_number c =? 0) /\
  cm4u_in_handler_mode c = negb (cm4u_in_thread_mode c).
Proof.
  intros H.
  assert (E : cm4u_get_exception_number c = cm4u_get_ipsr c).
  { unfold cm4u_get_exception_number, cm4u_get_ipsr, __get_IPSR.
    change 0x1FF with (Z.ones 9). rewrite and32_low_bits by lia.
    apply Z.mod_small. exact H. }
  split; [exact E|]. split; [rewrite E|]; reflexivity.
Qed.

Lemma mode_queries_agree_witness :
  0 <= IPSR in_systick < 512 /\
  cm4u_get_exception_number in_systick = 15 /\
  cm4u_in_handler_mode in_systick = true.
Proof.
  assert (H : 0 <= IPSR in_systick < 512) by (simpl; lia).
  split; [exact H|].
  destruct (mode_queries_agree in_systick H) as (E & _ & Hh).
  split; [exact E | exact Hh].
Defined.

(** X21. The stack-pointer queries test bit 1 of CONTROL and nothing
    else: [cm4u_using_psp] is that bit and [cm4u_using_msp] is its
    negation. *)
Theorem stack_pointer_queries_test_bit_1 (c : core_regs) :
  cm4u_using_psp c = Z.testbit (CONTROL c) 1 /\
  cm4u_using_msp c = negb (Z.testbit (CONTROL c) 1).
Proof.
  assert (L : Z.land (CONTROL c) 2 = if Z.testbit (CONTROL c) 1 then 2 else 0).
  { apply Z.bits_inj'. intros i Hi. rewrite Z.land_spec.
    destruct (Z.eq_dec i 1) as [-> | Hne].
    - change (Z.testbit 2 1) with true. rewrite Bool.andb_true_r.
      destruct (Z.testbit (CONTROL c) 1); reflexivity.
    - assert (T : Z.testbit 2 i = false).
      { change 2 with (2 ^ 1). rewrite Z.pow2_bits_eqb by lia.
        apply Z.eqb_neq. lia. }
      rewrite T, Bool.andb_false_r.
      destruct (Z.testbit (CONTROL c) 1);
        [symmetry; exact T | symmetry; apply Z.testbit_0_l]. }
  unfold cm4u_using_psp, cm4u_using_msp, __get_CONTROL, U.and32.
  change 0x2 with 2. rewrite L.
  destruct (Z.testbit (CONTROL c) 1); split; reflexivity.
Qed.

(* ------------------------------------------------------------------------ *)
(** ** The example program *)

(** X22. One pass of the main loop of the example, on a device with the
    DWT: if the pass completes, the interrupt mask and the debug control
    registers are as before the pass, and the counter has counted the
    profiled work plus at least the 1680 cycles of the 10 microsecond
    delay at 168 MHz. *)
Theorem main_loop_pass (p : platform) (work : N) (env : nat -> N)
        (fuel : nat) (s s' : hw) :
  has_DWT p = true ->
  main_loop_body p work env fuel s = Some s' ->
  regs_kept s s' /\
  Z.of_N work + 1680 <= counted s' - counted s.
Proof.
  intros Hp H. unfold main_loop_body in H.
  pose proof (critical_section_restores s) as R.
  destruct (cm4u_critical_enter s) as [primask s1].
  cbn [fst snd] in R.
  destruct (cm4u_critical_exit primask s1) as [[] s2].
  cbn [snd] in R. subst s2.
  unfold cm4u_profile_cycles_start in H.
  rewrite get_cycles_present in H by exact Hp.
  unfold __NOP, ret in H.
  rewrite profile_cycles_end_eq in H.
  unfold delay_us_blocking, cm4u_delay_us in H.
  change (cm4u_us_to_cycles 10 core_hz) with 1680 in H.
  pose proof (count_cycles_regs_kept work s) as K1.
  pose proof (count_cycles_counted work s) as C1.
  set (s5 := count_cycles work s) in *.
  unfold cm4u_delay_cycles in H. rewrite Hp in H. simpl in H.
  apply spin_exit in H. destruct H as (k & _ & Hs & Hd & _).
  split.
  - eapply regs_kept_trans; [exact K1|]. rewrite Hs. apply at_poll_regs_kept.
  - assert (Hw : 1680 <= counted s' - counted s5).
    { eapply Z.le_trans; [exact Hd|].
      apply tracks_elapsed. rewrite Hs. apply at_poll_tracks, tracks_refl. }
    lia.
Qed.

Lemma main_loop_pass_witness :
  has_DWT stm32f4 = true /\
  main_loop_body stm32f4 1 (fun _ => 1000%N) 5 near_wrap
  = Some (count_cycles 2001 near_wrap) /\
  Z.of_N 1 + 1680 <= counted (count_cycles 2001 near_wrap) - counted near_wrap.
Proof.
  assert (Hrun : main_loop_body stm32f4 1 (fun _ => 1000%N) 5 near_wrap
                 = Some (count_cycles 2001 near_wrap))
    by (vm_compute; reflexivity).
  split; [reflexivity|]. split; [exact Hrun|].
  exact (proj2 (main_loop_pass stm32f4 1 (fun _ => 1000%N) 5 near_wrap
                  (count_cycles 2001 near_wrap) eq_refl Hrun)).
Defined.
